(** * plot_config: the figure style builder [FigureTypeCreator]

    A shallow embedding of [figure_type_creator.py].  Python lists are
    Rocq lists, Python [int]s are [Z], dictionaries are [gmap]s, and a
    call that may raise is a function into [outcome]. *)

From Stdlib Require Import ZArith QArith.
From stdpp Require Import gmap strings list fin_maps.

Local Open Scope string_scope.
Local Open Scope Z_scope.

(* [set_solver] clears hypotheses by name, some of them already gone. *)
#[local] Set Warnings "-clear-no-such-hyp".

(** ** Exceptions *)

Inductive exn : Set :=
| ZeroDivisionError
| IndexError
| NotImplementedError
| AssertionError.

(** What a call yields: a value, or the exception it raised. *)

Inductive outcome (A : Type) : Type :=
| Ok (a : A)
| Raise (e : exn).

Arguments Ok {A} a.
Arguments Raise {A} e.

#[global] Instance outcome_ret : MRet outcome := @Ok.

#[global] Instance outcome_bind : MBind outcome := λ A B k m,
  match m with
  | Ok a => k a
  | Raise e => Raise e
  end.

(** ** Python sequence primitives *)

Module Py.

(** [l * m]: [m] copies of [l], and the empty list when [m <= 0]. *)
Fixpoint repeat_list {A : Type} (l : list A) (m : nat) : list A :=
  match m with
  | O => []
  | S m' => l ++ repeat_list l m'
  end.

Definition list_mul {A : Type} (l : list A) (m : Z) : list A :=
  repeat_list l (Z.to_nat m).

(** [l[:k]]: the first [k] items, and for a negative [k] all but the
    last [-k]. *)
Definition slice_to {A : Type} (l : list A) (k : Z) : list A :=
  if 0 <=? k then take (Z.to_nat k) l
  else take (length l - Z.to_nat (- k))%nat l.

(** [int(a / b)] for a positive [b]: the true quotient truncated
    towards zero.  The float quotient of the source is exact for every
    count a list can hold. *)
Definition int_truediv (a b : Z) : outcome Z :=
  if b =? 0 then Raise ZeroDivisionError else Ok (a ÷ b).

(** [l[i]] for an index [i >= 0], the only kind [enumerate] hands out. *)
Definition getitem {A : Type} (l : list A) (i : nat) : outcome A :=
  match l !! i with
  | Some x => Ok x
  | None => Raise IndexError
  end.

(** A dictionary display [{k1: v1, k2: v2, ...}]: entries are stored from
    left to right, so a repeated key keeps its last value. *)
Definition dict_of `{Countable K} {V : Type} (kvs : list (K * V)) : gmap K V :=
  foldl (λ d kv, <[kv.1 := kv.2]> d) ∅ kvs.

(** [d.update(other)]: the entries of [other] win. *)
Definition dict_update `{Countable K} {V : Type} (d other : gmap K V)
  : gmap K V :=
  other ∪ d.

(** [sep.join(parts)] *)
Fixpoint str_join (sep : string) (parts : list string) : string :=
  match parts with
  | [] => ""
  | [p] => p
  | p :: rest => p +:+ sep +:+ str_join sep rest
  end.

(** The one-character string written [backslash n] in a Python literal. *)
Definition newline : string := String (Ascii.ascii_of_nat 10) EmptyString.

End Py.

Arguments Py.slice_to : simpl never.
Arguments Py.list_mul : simpl never.

(** ** [FigureTypeCreator.get_entries] *)

Definition get_entries {A : Type} (cycle_list : list A) (num_entries : Z)
  : outcome (list A) :=
  let n := Z.of_nat (length cycle_list) in
  q ← Py.int_truediv num_entries n ;
  let m := q + 1 in
  Ok (Py.slice_to (Py.list_mul cycle_list m) num_entries).

(** ** Values, the cycling specification and the document *)

Section Model.
Context {color : Type} `{Countable color}.

(** One entry of the property cycle: the colour and line style of a
    series, and its marker when markers are cycled. *)
Record cycle_row : Type := CycleRow {
  row_color : color;
  row_ls : string;
  row_marker : option string
}.

(** The values a style option can hold.  Numbers written with a decimal
    point are kept as the exact rationals of their literals.  [VBuiltin]
    is an object of the [builtins] module, known by its name. *)
Inductive pyval : Type :=
| VInt (z : Z)
| VFloat (q : Q)
| VStr (s : string)
| VCycler (rows : list cycle_row)
| VBuiltin (name : string).

(** [v == 'literal']: a value equals a [str] only when it is that [str]. *)
Definition eq_str (v : pyval) (literal : string) : bool :=
  match v with
  | VStr s => String.eqb s literal
  | _ => false
  end.

(** Modelled from the spec: [cycler] is an external library; the cycling
    specification is the ordered list of per-series tuples, the colour
    and line style sequences paired index by index. *)
Definition cycler_color_ls (cs : list color) (lss : list string)
  : list cycle_row :=
  zip_with (λ c ls, CycleRow c ls None) cs lss.

(** Modelled from the spec: adding the marker cycle puts the marker of
    the same index into each tuple. *)
Definition cycler_add_marker (rows : list cycle_row) (ms : list string)
  : list cycle_row :=
  zip_with (λ r m, CycleRow (row_color r) (row_ls r) (Some m)) rows ms.

(** Modelled from the spec: [in2pt] of the absent [util] module, the
    conversion from inches to points, 72 points to the inch. *)
Definition in2pt (inches : Q) : Q := (inches * 72)%Q.

(** Modelled from the spec: the document class of the external [pubplot]
    package, of which the builder reads only the base font size. *)
Record DocumentClass : Type := {
  class_name : string;
  class_footnotesize : Q
}.

(** Modelled from the spec: the external [pubplot.Document], built from
    a document class and a style.  [doc_dict] holds the attributes
    assigned to the object after its construction. *)
Record Document : Type := {
  doc_class : DocumentClass;
  doc_style : gmap string pyval;
  doc_dict : gmap string pyval
}.

Definition Document_new (cls : DocumentClass) (style : gmap string pyval)
  : Document :=
  {| doc_class := cls; doc_style := style; doc_dict := ∅ |}.

Definition footnotesize (doc : Document) : Q :=
  class_footnotesize (doc_class doc).

(** Modelled from the spec: [update_style] merges further style entries
    into the style of the document. *)
Definition update_style (doc : Document) (partial : gmap string pyval)
  : Document :=
  {| doc_class := doc_class doc;
     doc_style := Py.dict_update (doc_style doc) partial;
     doc_dict := doc_dict doc |}.

(** [doc.__dict__.update(entries)] *)
Definition dict_attr_update (doc : Document) (entries : gmap string pyval)
  : Document :=
  {| doc_class := doc_class doc;
     doc_style := doc_style doc;
     doc_dict := Py.dict_update (doc_dict doc) entries |}.

(** ** The builder object *)

Record FigureTypeCreator : Type := {
  type : string;
  document_class : DocumentClass;
  num_entries : Z;
  use_markers : bool;
  paper_use_small_font : bool;
  colors : list color;
  linestyles : list string;
  markers : list string;
  hatches : list string;
  hatch_map : gmap color string;
  marker_map : gmap color string;
  ls_map : gmap color string
}.

Definition available_linestyles : list string :=
  ["solid"; "dotted"; "dashed"; "dashdot"].

Definition available_markers : list string :=
  ["o"; "^"; "s"; "*"; "X"; "d"].

(** The third hatch is two backslashes: a Rocq string has no escapes. *)
Definition available_hatches : list string :=
  [""; "//"; "\\"; "||"; "--"; "++"; "xx"].

(** The comprehension [{colors[i]: v for i, v in enumerate(values)}],
    run from index [i] on over the entries gathered in [acc]. *)
Fixpoint color_map_from {V : Type} (colors : list color) (i : nat)
    (values : list V) (acc : gmap color V) : outcome (gmap color V) :=
  match values with
  | [] => Ok acc
  | v :: rest =>
      c ← Py.getitem colors i;
      color_map_from colors (S i) rest (<[c := v]> acc)
  end.

Definition color_map {V : Type} (colors : list color) (values : list V)
  : outcome (gmap color V) :=
  color_map_from colors 0 values ∅.

(** [FigureTypeCreator.__init__] *)
Definition init (type : string) (document_class : DocumentClass)
    (colors : list color) (use_markers paper_use_small_font : bool)
    (num_entries : Z) : outcome FigureTypeCreator :=
  let colors := Py.slice_to colors num_entries in
  linestyles ← get_entries available_linestyles num_entries;
  markers ← get_entries available_markers num_entries;
  hatches ← get_entries available_hatches num_entries;
  hatch_map ← color_map colors hatches;
  marker_map ← color_map colors markers;
  ls_map ← color_map colors linestyles;
  Ok {| type := type;
        document_class := document_class;
        num_entries := num_entries;
        use_markers := use_markers;
        paper_use_small_font := paper_use_small_font;
        colors := colors;
        linestyles := linestyles;
        markers := markers;
        hatches := hatches;
        hatch_map := hatch_map;
        marker_map := marker_map;
        ls_map := ls_map |}.

(** The facts [__init__] establishes, read off a builder it returned. *)
Definition built_from (cs : list color) (N : Z) (self : FigureTypeCreator)
  : Prop :=
  colors self = Py.slice_to cs N
  ∧ get_entries available_linestyles N = Ok (linestyles self)
  ∧ get_entries available_markers N = Ok (markers self)
  ∧ get_entries available_hatches N = Ok (hatches self)
  ∧ color_map (colors self) (hatches self) = Ok (hatch_map self)
  ∧ color_map (colors self) (markers self) = Ok (marker_map self)
  ∧ color_map (colors self) (linestyles self) = Ok (ls_map self).

(** ** The methods *)

Definition get_cycler (self : FigureTypeCreator) : list cycle_row :=
  let cycling := cycler_color_ls (colors self) (linestyles self) in
  if use_markers self then cycler_add_marker cycling (markers self)
  else cycling.

Definition get_custom_style (self : FigureTypeCreator)
  : gmap string pyval :=
  Py.dict_of [].

Definition paper_line_sizes : gmap string pyval :=
  Py.dict_of [
    ("axes.linewidth", VFloat 0.5);
    ("xtick.major.width", VFloat 0.5);
    ("ytick.major.width", VFloat 0.5);
    ("xtick.minor.width", VFloat 0.4);
    ("ytick.minor.width", VFloat 0.4);
    ("lines.linewidth", VFloat 0.8);
    ("lines.markersize", VFloat 1.5);
    ("legend.handlelength", VFloat 2.5);
    ("hatch.linewidth", VFloat 0.5);
    ("grid.linewidth", VFloat 0.25)
  ].

(** Every entry of the presentation branch is commented out in the
    source. *)
Definition presentation_line_sizes : gmap string pyval :=
  Py.dict_of [].

Definition get_line_sizes (self : FigureTypeCreator)
  : outcome (gmap string pyval) :=
  let ret := Py.dict_of [("grid.linestyle", VStr "--")] in
  if eq_str (VStr (type self)) "paper" then
    Ok (Py.dict_update ret paper_line_sizes)
  else if eq_str (VStr (type self)) "presentation" then
    Ok (Py.dict_update ret presentation_line_sizes)
  else Raise NotImplementedError.

(** In the body of [get_font_sizes] the bare name [type] is neither a
    local nor a module-level name, so it is looked up in [builtins]. *)
Definition builtin_type : pyval := VBuiltin "type".

Definition font_sizes (big_size small_size : pyval) : gmap string pyval :=
  Py.dict_of [
    ("font.size", big_size);
    ("axes.titlesize", big_size);
    ("axes.labelsize", big_size);
    ("legend.fontsize", small_size);
    ("legend.title_fontsize", big_size);
    ("xtick.labelsize", small_size);
    ("ytick.labelsize", small_size)
  ].

Definition latex_preamble : string :=
  Py.str_join Py.newline ["\usepackage[cm]{sfmath}"; "\usepackage{amsmath}"].

Definition get_font_sizes (self : FigureTypeCreator) : gmap string pyval :=
  let ret := Py.dict_of [
    ("font.family", VStr "sans-serif");
    ("text.latex.preamble", VStr latex_preamble)
  ] in
  if eq_str builtin_type "presentation" then
    let big_size := VInt 28 in
    let small_size := VInt 24 in
    Py.dict_update ret (font_sizes big_size small_size)
  else ret.

Definition ppt_sizes : gmap string pyval :=
  Py.dict_of [
    ("columnwidth", VFloat (in2pt 13.33));
    ("textwidth", VFloat (in2pt 7.5))
  ].

Definition presentation_config (self : FigureTypeCreator) (doc : Document)
  : Document :=
  dict_attr_update doc ppt_sizes.

(** [paper_small_font] yields the document as the call leaves it,
    together with the result of the call. *)
Definition paper_small_font (self : FigureTypeCreator) (doc : Document)
  : Document * outcome unit :=
  if paper_use_small_font self then
    if eq_str (VStr (type self)) "paper" then
      let big_size := VFloat (footnotesize doc - 1) in
      let small_size := VFloat (footnotesize doc - 2) in
      (update_style doc (font_sizes big_size small_size), Ok ())
    else (doc, Raise AssertionError)
  else (doc, Ok ()).

(** The style handed to the [Document] constructor. *)
Definition get_style (self : FigureTypeCreator)
  : outcome (gmap string pyval) :=
  let style := Py.dict_of [
    ("pdf.fonttype", VInt 42);
    ("axes.prop_cycle", VCycler (get_cycler self))
  ] in
  let style := Py.dict_update style (get_custom_style self) in
  line_sizes ← get_line_sizes self;
  let style := Py.dict_update style line_sizes in
  let style := Py.dict_update style (get_font_sizes self) in
  Ok style.

Definition get_figure_type (self : FigureTypeCreator) : outcome Document :=
  style ← get_style self;
  let doc := Document_new (document_class self) style in
  let doc := presentation_config self doc in
  let '(doc, patched) := paper_small_font self doc in
  _ ← patched;
  Ok doc.

End Model.
(** ** Sample objects

    A document class and builders over colours named by strings, for
    running the model on concrete inputs. *)

Definition sample_class : DocumentClass :=
  {| class_name := "usenix"; class_footnotesize := 8 |}.

Definition sample_builder (type : string) (paper_use_small_font : bool)
  : FigureTypeCreator (color:=string) :=
  {| type := type;
     document_class := sample_class;
     num_entries := 2;
     use_markers := false;
     paper_use_small_font := paper_use_small_font;
     colors := ["c0"; "c1"];
     linestyles := ["solid"; "dotted"];
     markers := ["o"; "^"];
     hatches := [""; "//"];
     hatch_map := Py.dict_of [("c0", ""); ("c1", "//")];
     marker_map := Py.dict_of [("c0", "o"); ("c1", "^")];
     ls_map := Py.dict_of [("c0", "solid"); ("c1", "dotted")] |}.

(** Reduce a bind whose first computation is already a result. *)
Ltac run_bind := cbn [mbind outcome_bind].

(** ** Cyclic tiling *)

Section Tiling.
Context {A : Type}.
Implicit Types (l : list A) (m i : nat).

Lemma repeat_list_length l m :
  length (Py.repeat_list l m) = (m * length l)%nat.
Proof.
  induction m as [|m IH]; simpl; [done|].
  rewrite length_app, IH. lia.
Qed.

Lemma repeat_list_lookup l m i :
  (i < m * length l)%nat →
  Py.repeat_list l m !! i = l !! (i mod length l)%nat.
Proof.
  revert i. induction m as [|m IH]; intros i Hi; simpl in *; [lia|].
  destruct (decide (i < length l)%nat) as [Hlt|Hge].
  - rewrite lookup_app_l by done. by rewrite Nat.mod_small.
  - rewrite lookup_app_r by lia.
    rewrite IH by lia.
    f_equal.
    replace i with ((i - length l) + 1 * length l)%nat at 2 by lia.
    rewrite Nat.Div0.mod_add. done.
Qed.

Lemma slice_to_nonneg l (k : Z) :
  0 ≤ k → Py.slice_to l k = take (Z.to_nat k) l.
Proof.
  intros Hk. unfold Py.slice_to.
  destruct (Z.leb_spec 0 k); [done|lia].
Qed.

(** The copies made by [get_entries] always cover the requested count. *)
Lemma copies_cover l (k : Z) :
  0 ≤ k → l ≠ [] →
  (Z.to_nat k < Z.to_nat (k ÷ Z.of_nat (length l) + 1) * length l)%nat.
Proof.
  intros Hk Hl.
  assert (0 < Z.of_nat (length l)) as Hn by (destruct l; simpl; [done|lia]).
  set (n := Z.of_nat (length l)) in *.
  rewrite Z.quot_div_nonneg by lia.
  pose proof (Z.div_mod k n ltac:(lia)) as Hdm.
  pose proof (Z.mod_pos_bound k n Hn) as Hm.
  pose proof (Z.div_pos k n Hk Hn) as Hq.
  apply Nat2Z.inj_lt.
  rewrite Nat2Z.inj_mul, !Z2Nat.id by lia.
  fold n. nia.
Qed.

End Tiling.

(** ** The cyclic palette assigner *)

Section Assigner.
Context {A : Type}.
Implicit Types (P : list A) (n : Z).

Lemma nonempty_length_pos P : P ≠ [] → 0 < Z.of_nat (length P).
Proof. destruct P; simpl; [done|lia]. Qed.

Lemma get_entries_unfold P n :
  P ≠ [] →
  get_entries P n =
    Ok (Py.slice_to (Py.list_mul P (n ÷ Z.of_nat (length P) + 1)) n).
Proof.
  intros HP. pose proof (nonempty_length_pos P HP) as Hlen.
  unfold get_entries, Py.int_truediv.
  destruct (Z.eqb_spec (Z.of_nat (length P)) 0); [lia|done].
Qed.

Lemma get_entries_tiles P n :
  P ≠ [] → 0 ≤ n →
  ∃ out, get_entries P n = Ok out
    ∧ length out = Z.to_nat n
    ∧ ∀ i : nat, (i < Z.to_nat n)%nat →
        out !! i = P !! (i mod length P)%nat.
Proof.
  intros HP Hn. rewrite get_entries_unfold by done.
  pose proof (copies_cover P n Hn HP) as Hcover.
  eexists; split; [done|].
  rewrite slice_to_nonneg by done. unfold Py.list_mul. split.
  - rewrite length_take, repeat_list_length. lia.
  - intros i Hi. rewrite lookup_take_lt by done.
    apply repeat_list_lookup. lia.
Qed.

(** C1: for a non-empty palette [P] and a count [n >= 0], [get_entries]
    returns a sequence of length exactly [n] whose item at each position
    [i] is [P[i mod len(P)]]. *)
Theorem get_entries_cyclic P n :
  P ≠ [] → 0 ≤ n →
  ∃ out, get_entries P n = Ok out
    ∧ Z.of_nat (length out) = n
    ∧ ∀ i : nat, (i < Z.to_nat n)%nat →
        out !! i = P !! (i mod length P)%nat.
Proof.
  intros HP Hn.
  destruct (get_entries_tiles P n HP Hn) as (out & Hout & Hlen & Hidx).
  exists out. split_and!; [done|lia|done].
Qed.

(** C8: [get_entries] fails on the empty palette (the division by its
    length raises), returns the empty sequence for a non-empty palette
    and [n = 0], and raises for no non-empty palette, whatever the count. *)
Theorem get_entries_errors P n :
  (P = [] → get_entries P n = Raise ZeroDivisionError)
  ∧ (P ≠ [] → get_entries P 0 = Ok [])
  ∧ (P ≠ [] → ∃ out, get_entries P n = Ok out)
  ∧ (∀ e, get_entries P n = Raise e → P = [] ∧ e = ZeroDivisionError).
Proof.
  split_and!.
  - by intros ->.
  - intros HP. rewrite get_entries_unfold by done.
    by rewrite slice_to_nonneg, take_0.
  - intros HP. rewrite get_entries_unfold by done. by eexists.
  - intros e. destruct P as [|x P'].
    + cbv. by intros [= <-].
    + by rewrite get_entries_unfold.
Qed.

End Assigner.

Lemma get_entries_cyclic_witness :
  ∃ out, get_entries ["o"; "^"; "s"] 5 = Ok out
    ∧ Z.of_nat (length out) = 5
    ∧ ∀ i : nat, (i < Z.to_nat 5)%nat →
        out !! i = ["o"; "^"; "s"] !! (i mod 3)%nat.
Proof. apply (get_entries_cyclic ["o"; "^"; "s"] 5); [done|lia]. Defined.

Lemma get_entries_errors_witness :
  get_entries (@nil string) 7 = Raise ZeroDivisionError
  ∧ get_entries ["o"; "^"; "s"] 0 = Ok []
  ∧ ∃ out, get_entries ["o"; "^"; "s"] (-2) = Ok out.
Proof.
  split_and!.
  - by apply (get_entries_errors (@nil string) 7).
  - by apply (get_entries_errors ["o"; "^"; "s"] 7).
  - by apply (get_entries_errors ["o"; "^"; "s"] (-2)).
Defined.

(** ** The colour-keyed reverse maps *)

Section ReverseMaps.
Context {color : Type} `{Countable color} {V : Type}.
Implicit Types (cs : list color) (values : list V) (acc m : gmap color V).

Lemma color_map_from_ok cs i values acc :
  (i + length values ≤ length cs)%nat →
  ∃ m, color_map_from cs i values acc = Ok m.
Proof.
  revert i acc. induction values as [|v rest IH]; intros i acc Hlen; simpl in *.
  - by eexists.
  - unfold Py.getitem.
    destruct (lookup_lt_is_Some_2 cs i ltac:(lia)) as [c ->]. simpl.
    apply IH. lia.
Qed.

Lemma color_map_from_short cs i values acc :
  (i ≤ length cs < i + length values)%nat →
  color_map_from cs i values acc = Raise IndexError.
Proof.
  revert i acc. induction values as [|v rest IH]; intros i acc Hlen; simpl in *.
  - lia.
  - unfold Py.getitem. destruct (cs !! i) as [c|] eqn:Hc; simpl; [|done].
    apply lookup_lt_Some in Hc. apply IH. lia.
Qed.

(** A colour that keys none of the remaining entries keeps what it had. *)
Lemma color_map_from_keep cs i values acc m c :
  color_map_from cs i values acc = Ok m →
  (∀ j, (j < length values)%nat → cs !! (i + j)%nat ≠ Some c) →
  m !! c = acc !! c.
Proof.
  revert i acc. induction values as [|v rest IH]; intros i acc Hm Hfree; simpl in *.
  - by injection Hm as <-.
  - unfold Py.getitem in Hm. destruct (cs !! i) as [c'|] eqn:Hc'; simpl in Hm; [|done].
    rewrite (IH _ _ Hm).
    + apply lookup_insert_ne. intros ->.
      apply (Hfree 0%nat); [lia|]. by rewrite Nat.add_0_r.
    + intros j Hj. rewrite Nat.add_succ_comm.
      apply Hfree. lia.
Qed.

(** The entry written last for a colour is the one the map holds. *)
Lemma color_map_from_last cs i values acc m j c v :
  color_map_from cs i values acc = Ok m →
  values !! j = Some v →
  cs !! (i + j)%nat = Some c →
  (∀ j', (j < j' < length values)%nat → cs !! (i + j')%nat ≠ Some c) →
  m !! c = Some v.
Proof.
  revert i acc j.
  induction values as [|v0 rest IH]; intros i acc j Hm Hv Hc Hlast; simpl in *.
  - done.
  - unfold Py.getitem in Hm. destruct (cs !! i) as [c0|] eqn:Hc0; simpl in Hm; [|done].
    destruct j as [|j]; simpl in Hv.
    + injection Hv as ->. rewrite Nat.add_0_r in Hc.
      assert (c0 = c) as -> by congruence.
      rewrite (color_map_from_keep _ _ _ _ _ c Hm).
      * apply lookup_insert_eq.
      * intros j' Hj'. rewrite Nat.add_succ_comm.
        apply Hlast. lia.
    + apply (IH (S i) _ j Hm Hv).
      * by rewrite Nat.add_succ_comm.
      * intros j' Hj'. rewrite Nat.add_succ_comm.
        apply Hlast. lia.
Qed.

Lemma color_map_ok cs values :
  (length values ≤ length cs)%nat → ∃ m, color_map cs values = Ok m.
Proof. intros Hlen. by apply color_map_from_ok. Qed.

Lemma color_map_short cs values :
  (length cs < length values)%nat → color_map cs values = Raise IndexError.
Proof. intros Hlen. apply color_map_from_short. lia. Qed.

Lemma color_map_last cs values m i c :
  color_map cs values = Ok m →
  length values = length cs →
  cs !! i = Some c →
  (∀ j, (i < j)%nat → cs !! j ≠ Some c) →
  m !! c = values !! i.
Proof.
  intros Hm Hlen Hc Hlast.
  destruct (lookup_lt_is_Some_2 values i) as [v Hv].
  { rewrite Hlen. by eapply lookup_lt_Some. }
  rewrite Hv.
  apply (color_map_from_last cs 0 values ∅ m i c v Hm Hv Hc).
  intros j' Hj'. apply Hlast. lia.
Qed.

End ReverseMaps.

(** ** Construction of the builder *)

Section Construction.
Context {color : Type} `{Countable color}.
Implicit Types (cs : list color) (N : Z) (self : FigureTypeCreator (color:=color)).

Lemma init_inv ty cls cs um sf N self :
  init ty cls cs um sf N = Ok self →
  built_from cs N self
  ∧ type self = ty ∧ document_class self = cls ∧ num_entries self = N
  ∧ use_markers self = um ∧ paper_use_small_font self = sf.
Proof.
  unfold init, built_from.
  destruct (get_entries available_linestyles N) as [ls|] eqn:Hls; run_bind; [|done].
  destruct (get_entries available_markers N) as [ms|] eqn:Hms; run_bind; [|done].
  destruct (get_entries available_hatches N) as [hs|] eqn:Hhs; run_bind; [|done].
  destruct (color_map (Py.slice_to cs N) hs) as [hm|] eqn:Hhm; run_bind; [|done].
  destruct (color_map (Py.slice_to cs N) ms) as [mm|] eqn:Hmm; run_bind; [|done].
  destruct (color_map (Py.slice_to cs N) ls) as [lm|] eqn:Hlm; run_bind; [|done].
  intros [= <-]. simpl. by split_and!.
Qed.

Lemma channel_lengths N (P : list string) out :
  P ≠ [] → 0 ≤ N → get_entries P N = Ok out → length out = Z.to_nat N.
Proof.
  intros HP HN Hout.
  destruct (get_entries_tiles P N HP HN) as (out' & Hout' & Hlen & _).
  congruence.
Qed.

Lemma init_ok ty cls cs um sf N :
  0 ≤ N → N ≤ Z.of_nat (length cs) →
  ∃ self, init ty cls cs um sf N = Ok self.
Proof.
  intros HN Hcs. unfold init.
  destruct (get_entries_tiles available_linestyles N) as (ls & -> & Hls & _);
    [done..|].
  destruct (get_entries_tiles available_markers N) as (ms & -> & Hms & _);
    [done..|].
  destruct (get_entries_tiles available_hatches N) as (hs & -> & Hhs & _);
    [done..|].
  run_bind.
  assert (length (Py.slice_to cs N) = Z.to_nat N) as Hlen.
  { rewrite slice_to_nonneg by done. rewrite length_take. lia. }
  destruct (color_map_ok (Py.slice_to cs N) hs) as [hm ->]; [lia|].
  destruct (color_map_ok (Py.slice_to cs N) ms) as [mm ->]; [lia|].
  destruct (color_map_ok (Py.slice_to cs N) ls) as [lm ->]; [lia|].
  run_bind. by eexists.
Qed.

Lemma built_lengths cs N self :
  0 ≤ N → N ≤ Z.of_nat (length cs) → built_from cs N self →
  length (colors self) = Z.to_nat N
  ∧ length (linestyles self) = Z.to_nat N
  ∧ length (markers self) = Z.to_nat N
  ∧ length (hatches self) = Z.to_nat N.
Proof.
  intros HN Hcs (Hc & Hls & Hms & Hhs & _).
  split_and!.
  - rewrite Hc, slice_to_nonneg by done. rewrite length_take. lia.
  - by apply (channel_lengths N available_linestyles).
  - by apply (channel_lengths N available_markers).
  - by apply (channel_lengths N available_hatches).
Qed.

(** C2 (amended): for a target count [N >= 0] and a colour palette of at
    least [N] entries, the construction succeeds and the colour, line
    style, marker and hatch sequences of the builder all have length
    [N]. *)
Theorem init_channels_aligned ty cls cs um sf N :
  0 ≤ N → N ≤ Z.of_nat (length cs) →
  ∃ self, init ty cls cs um sf N = Ok self
    ∧ Z.of_nat (length (colors self)) = N
    ∧ Z.of_nat (length (linestyles self)) = N
    ∧ Z.of_nat (length (markers self)) = N
    ∧ Z.of_nat (length (hatches self)) = N.
Proof.
  intros HN Hcs.
  destruct (init_ok ty cls cs um sf N HN Hcs) as [self Hself].
  exists self. split; [done|].
  apply init_inv in Hself as [Hbuilt _].
  destruct (built_lengths cs N self HN Hcs Hbuilt) as (? & ? & ? & ?).
  lia.
Qed.

(** The three reverse maps of a builder agree, at the last position of
    each colour, with the channel sequences. *)
Lemma built_last_wins cs N self i c :
  0 ≤ N → N ≤ Z.of_nat (length cs) → built_from cs N self →
  colors self !! i = Some c →
  (∀ j, (i < j)%nat → colors self !! j ≠ Some c) →
  ls_map self !! c = linestyles self !! i
  ∧ marker_map self !! c = markers self !! i
  ∧ hatch_map self !! c = hatches self !! i.
Proof.
  intros HN Hcs Hbuilt Hc Hlast.
  destruct (built_lengths cs N self HN Hcs Hbuilt) as (Lc & Lls & Lms & Lhs).
  destruct Hbuilt as (_ & _ & _ & _ & Hhm & Hmm & Hlm).
  split_and!; eapply color_map_last; eauto; congruence.
Qed.

(** C9: when a colour occurs more than once among the first [N] entries
    of the palette, each of the three reverse maps binds it to the
    channel value at the last index below [N] at which it occurs. *)
Theorem reverse_maps_last_wins ty cls cs um sf N :
  0 ≤ N → N ≤ Z.of_nat (length cs) →
  ∃ self, init ty cls cs um sf N = Ok self
    ∧ ∀ (i : nat) c, (i < Z.to_nat N)%nat →
        cs !! i = Some c →
        (∀ j, (i < j < Z.to_nat N)%nat → cs !! j ≠ Some c) →
        ∃ ls mk h,
          linestyles self !! i = Some ls
          ∧ markers self !! i = Some mk
          ∧ hatches self !! i = Some h
          ∧ ls_map self !! c = Some ls
          ∧ marker_map self !! c = Some mk
          ∧ hatch_map self !! c = Some h.
Proof.
  intros HN Hcs.
  destruct (init_ok ty cls cs um sf N HN Hcs) as [self Hself].
  exists self. split; [done|]. intros i c Hi Hc Hlast.
  apply init_inv in Hself as [Hbuilt _].
  destruct (built_lengths cs N self HN Hcs Hbuilt) as (Lc & Lls & Lms & Lhs).
  assert (colors self = take (Z.to_nat N) cs) as Hcolors.
  { destruct Hbuilt as [-> _]. by apply slice_to_nonneg. }
  destruct (lookup_lt_is_Some_2 (linestyles self) i) as [ls Hl]; [lia|].
  destruct (lookup_lt_is_Some_2 (markers self) i) as [mk Hm]; [lia|].
  destruct (lookup_lt_is_Some_2 (hatches self) i) as [h Hh]; [lia|].
  exists ls, mk, h.
  destruct (built_last_wins cs N self i c HN Hcs Hbuilt) as (? & ? & ?).
  - rewrite Hcolors. by rewrite lookup_take_lt.
  - intros j Hj. rewrite Hcolors.
    destruct (decide (j < Z.to_nat N)%nat).
    + rewrite lookup_take_lt by done. apply Hlast. lia.
    + by rewrite lookup_take_ge by lia.
  - split_and!; congruence.
Qed.

(** C6: for a palette whose first [N] entries are pairwise distinct,
    looking up the colour of any series [i < N] in the line style,
    marker and hatch reverse maps yields the line style, marker and
    hatch of series [i]. *)
Theorem reverse_maps_roundtrip ty cls cs um sf N :
  0 ≤ N → N ≤ Z.of_nat (length cs) →
  NoDup (take (Z.to_nat N) cs) →
  ∃ self, init ty cls cs um sf N = Ok self
    ∧ ∀ i : nat, (i < Z.to_nat N)%nat →
        ∃ c ls mk h,
          colors self !! i = Some c
          ∧ linestyles self !! i = Some ls
          ∧ markers self !! i = Some mk
          ∧ hatches self !! i = Some h
          ∧ ls_map self !! c = Some ls
          ∧ marker_map self !! c = Some mk
          ∧ hatch_map self !! c = Some h.
Proof.
  intros HN Hcs Hdistinct.
  destruct (init_ok ty cls cs um sf N HN Hcs) as [self Hself].
  exists self. split; [done|]. intros i Hi.
  apply init_inv in Hself as [Hbuilt _].
  destruct (built_lengths cs N self HN Hcs Hbuilt) as (Lc & Lls & Lms & Lhs).
  assert (colors self = take (Z.to_nat N) cs) as Hcolors.
  { destruct Hbuilt as [-> _]. by apply slice_to_nonneg. }
  destruct (lookup_lt_is_Some_2 (colors self) i) as [c Hc]; [lia|].
  destruct (lookup_lt_is_Some_2 (linestyles self) i) as [ls Hl]; [lia|].
  destruct (lookup_lt_is_Some_2 (markers self) i) as [mk Hm]; [lia|].
  destruct (lookup_lt_is_Some_2 (hatches self) i) as [h Hh]; [lia|].
  exists c, ls, mk, h.
  destruct (built_last_wins cs N self i c HN Hcs Hbuilt Hc) as (? & ? & ?).
  - intros j Hj Hcj. rewrite Hcolors in Hc, Hcj.
    pose proof (NoDup_lookup _ _ _ _ Hdistinct Hc Hcj). lia.
  - split_and!; congruence.
Qed.

(** C10: a palette with fewer than [num_entries] colours makes the
    construction fail with [IndexError]: the colour sequence is the
    palette itself, cut but never cycled, while the hatch sequence of the
    first reverse map has [num_entries] items. *)
Theorem init_short_palette ty cls cs um sf N :
  Z.of_nat (length cs) < N →
  init ty cls cs um sf N = Raise IndexError
  ∧ Py.slice_to cs N = cs
  ∧ ∃ hs, get_entries available_hatches N = Ok hs
      ∧ Z.of_nat (length hs) = N
      ∧ color_map cs hs = Raise IndexError.
Proof.
  intros Hshort. assert (0 ≤ N) as HN by lia.
  assert (Py.slice_to cs N = cs) as Hcs.
  { rewrite slice_to_nonneg by done. apply take_ge. lia. }
  destruct (get_entries_tiles available_linestyles N) as (ls & Hls & _);
    [done..|].
  destruct (get_entries_tiles available_markers N) as (ms & Hms & _);
    [done..|].
  destruct (get_entries_tiles available_hatches N) as (hs & Hhs & Lhs & _);
    [done..|].
  assert (color_map cs hs = Raise IndexError) as Hraise.
  { apply color_map_short. lia. }
  split_and!; [|done|].
  - unfold init. rewrite Hls, Hms, Hhs, Hcs. run_bind. by rewrite Hraise.
  - exists hs. split_and!; [done|lia|done].
Qed.

End Construction.

(** ** Mode-dependent style parameters *)

Section Methods.
Context {color : Type} `{Countable color}.
Implicit Types (self : FigureTypeCreator (color:=color)).
Implicit Types (doc : Document (color:=color)) (k : string).

Lemma eq_str_paper self :
  type self = "paper" → eq_str (color:=color) (VStr (type self)) "paper" = true.
Proof. by intros ->. Qed.

Lemma eq_str_not_paper self :
  type self ≠ "paper" → eq_str (color:=color) (VStr (type self)) "paper" = false.
Proof. intros Hty. simpl. by apply String.eqb_neq. Qed.

Lemma get_line_sizes_paper self :
  type self = "paper" →
  get_line_sizes self =
    Ok (Py.dict_update (Py.dict_of [("grid.linestyle", VStr "--")])
          paper_line_sizes).
Proof. intros Hty. unfold get_line_sizes. by rewrite Hty. Qed.

Lemma get_line_sizes_presentation self :
  type self = "presentation" →
  get_line_sizes self = Ok {["grid.linestyle" := VStr "--"]}.
Proof.
  intros Hty. unfold get_line_sizes. rewrite Hty. cbn [eq_str String.eqb].
  simpl. do 2 f_equal.
Qed.

(** The keys the paper branch of [get_line_sizes] writes. *)
Lemma paper_line_sizes_keys k :
  is_Some (paper_line_sizes (color:=color) !! k) →
  k ∈ ["axes.linewidth"; "xtick.major.width"; "ytick.major.width";
       "xtick.minor.width"; "ytick.minor.width"; "lines.linewidth";
       "lines.markersize"; "legend.handlelength"; "hatch.linewidth";
       "grid.linewidth"].
Proof.
  unfold paper_line_sizes, Py.dict_of. cbn [foldl fst snd]. intros Hk.
  repeat (apply lookup_insert_is_Some in Hk as [<-|[_ Hk]];
          [by repeat constructor|]).
  rewrite lookup_empty in Hk. by destruct Hk.
Qed.

Lemma get_style_paper self :
  type self = "paper" → ∃ style, get_style self = Ok style.
Proof.
  intros Hty. unfold get_style.
  rewrite (get_line_sizes_paper self Hty). by eexists.
Qed.

(** C7: in [paper] mode the numeric style parameters hold
    [axes.linewidth = 0.5] and [lines.linewidth = 0.8] over the default
    [grid.linestyle = '--'], in [get_line_sizes] and in the style built
    from it; in [presentation] mode they hold the default alone and none
    of the paper overrides. *)
Theorem line_sizes_by_mode self :
  (type self = "paper" →
     ∃ ret style, get_line_sizes self = Ok ret
       ∧ ret !! "axes.linewidth" = Some (VFloat 0.5)
       ∧ ret !! "lines.linewidth" = Some (VFloat 0.8)
       ∧ ret !! "grid.linestyle" = Some (VStr "--")
       ∧ get_style self = Ok style
       ∧ style !! "axes.linewidth" = Some (VFloat 0.5)
       ∧ style !! "lines.linewidth" = Some (VFloat 0.8)
       ∧ style !! "grid.linestyle" = Some (VStr "--"))
  ∧ (type self = "presentation" →
     ∃ style, get_line_sizes self = Ok {["grid.linestyle" := VStr "--"]}
       ∧ get_style self = Ok style
       ∧ style !! "grid.linestyle" = Some (VStr "--")
       ∧ ∀ k, is_Some (paper_line_sizes (color:=color) !! k) →
           style !! k = None).
Proof.
  split; intros Hty.
  - unfold get_style. rewrite (get_line_sizes_paper self Hty). run_bind.
    do 2 eexists. split_and!; try done; by vm_compute.
  - unfold get_style. rewrite (get_line_sizes_presentation self Hty). run_bind.
    eexists. split_and!; try done.
    intros k Hk%paper_line_sizes_keys.
    repeat (apply elem_of_cons in Hk as [->|Hk]; [by vm_compute|]).
    by apply elem_of_nil in Hk.
Qed.

(** C3: [get_font_sizes] compares the builtin [type], not the mode of
    the builder, with ['presentation'], so whatever the mode it returns
    the font family and the preamble alone and sets no font size. *)
Theorem get_font_sizes_ignores_mode self :
  get_font_sizes self =
    Py.dict_of [("font.family", VStr "sans-serif");
                ("text.latex.preamble", VStr latex_preamble)]
  ∧ get_font_sizes self !! "font.size" = None
  ∧ get_font_sizes self !! "axes.titlesize" = None
  ∧ get_font_sizes self !! "axes.labelsize" = None
  ∧ get_font_sizes self !! "legend.fontsize" = None
  ∧ get_font_sizes self !! "legend.title_fontsize" = None
  ∧ get_font_sizes self !! "xtick.labelsize" = None
  ∧ get_font_sizes self !! "ytick.labelsize" = None.
Proof. by split_and!. Qed.

(** C4: [get_figure_type] calls [presentation_config] whatever the mode,
    so the document of a [paper] build receives the two layout constants
    [columnwidth] and [textwidth] as well. *)
Theorem paper_build_layout_constants self :
  type self = "paper" →
  ∃ doc, get_figure_type self = Ok doc
    ∧ doc_dict doc !! "columnwidth" = Some (VFloat (in2pt 13.33))
    ∧ doc_dict doc !! "textwidth" = Some (VFloat (in2pt 7.5)).
Proof.
  intros Hty. unfold get_figure_type.
  destruct (get_style_paper self Hty) as [style ->]. run_bind.
  unfold paper_small_font. rewrite (eq_str_paper self Hty).
  destruct (paper_use_small_font self); run_bind;
    (eexists; split_and!; [done|by vm_compute..]).
Qed.

(** C5: with the small-font flag set and a mode other than [paper],
    [paper_small_font] raises [AssertionError] and leaves the document as
    it was, and every build that reaches it fails with that error; a
    [presentation] build does reach it. *)
Theorem small_font_outside_paper self :
  paper_use_small_font self = true →
  type self ≠ "paper" →
  (∀ doc, paper_small_font self doc = (doc, Raise AssertionError))
  ∧ (∀ style, get_style self = Ok style →
       get_figure_type self = Raise AssertionError)
  ∧ (type self = "presentation" →
       (∃ style, get_style self = Ok style)
       ∧ get_figure_type self = Raise AssertionError).
Proof.
  intros Hflag Hty.
  assert (∀ doc, paper_small_font self doc = (doc, Raise AssertionError))
    as Hpatch.
  { intros doc. unfold paper_small_font.
    by rewrite Hflag, (eq_str_not_paper self Hty). }
  assert (∀ style, get_style self = Ok style →
            get_figure_type self = Raise AssertionError) as Hbuild.
  { intros style Hstyle. unfold get_figure_type.
    rewrite Hstyle. run_bind. by rewrite Hpatch. }
  split_and!; [done..|].
  intros Hpres.
  assert (∃ style, get_style self = Ok style) as [style Hstyle].
  { unfold get_style. rewrite (get_line_sizes_presentation self Hpres).
    by eexists. }
  split; [by exists style|by apply (Hbuild style)].
Qed.

End Methods.

(** ** Runs on concrete inputs *)

Example get_entries_linestyles :
  get_entries available_linestyles 10 =
    Ok ["solid"; "dotted"; "dashed"; "dashdot"; "solid"; "dotted";
        "dashed"; "dashdot"; "solid"; "dotted"].
Proof. reflexivity. Qed.

Example get_entries_markers :
  get_entries ["o"; "^"; "s"] 5 = Ok ["o"; "^"; "s"; "o"; "^"].
Proof. reflexivity. Qed.

Example color_map_two :
  color_map ["c0"; "c1"] ["solid"; "dashed"] =
    Ok (Py.dict_of [("c0", "solid"); ("c1", "dashed")]).
Proof. reflexivity. Qed.

Example init_sample ty sf :
  init ty sample_class ["c0"; "c1"; "c2"] false sf 2 = Ok (sample_builder ty sf).
Proof. reflexivity. Qed.

Example get_font_sizes_presentation :
  get_font_sizes (sample_builder "presentation" false) !! "font.size" = None
  ∧ ∃ doc, get_figure_type (sample_builder "presentation" false) = Ok doc
      ∧ doc_style doc !! "font.size" = None
      ∧ doc_style doc !! "legend.fontsize" = None.
Proof. split; [done|]. eexists. by split_and!. Qed.

Example get_figure_type_paper_small_font :
  ∃ doc, get_figure_type (sample_builder "paper" true) = Ok doc
    ∧ doc_style doc !! "font.size" = Some (VFloat (8 - 1))
    ∧ doc_style doc !! "legend.fontsize" = Some (VFloat (8 - 2)).
Proof. eexists. by split_and!. Qed.

(** C2, as first stated, fails on a palette shorter than the count: with
    one colour and [N = 2] the construction raises, and the colour
    sequence it cut has one item, not two. *)
Lemma init_short_palette_counterexample :
  init "paper" sample_class ["c0"] false true 2 = Raise IndexError
  ∧ length (Py.slice_to ["c0"] 2) = 1%nat
  ∧ ¬ ∃ self, init "paper" sample_class ["c0"] false true 2 = Ok self
        ∧ Z.of_nat (length (colors self)) = 2.
Proof. split_and!; [done..|]. by intros (self & [=] & _). Qed.

Lemma init_channels_aligned_witness :
  ∃ self, init "paper" sample_class ["c0"; "c1"; "c2"] false true 2 = Ok self
    ∧ Z.of_nat (length (colors self)) = 2
    ∧ Z.of_nat (length (linestyles self)) = 2
    ∧ Z.of_nat (length (markers self)) = 2
    ∧ Z.of_nat (length (hatches self)) = 2.
Proof.
  apply (init_channels_aligned "paper" sample_class ["c0"; "c1"; "c2"]
           false true 2); simpl; lia.
Defined.

Lemma reverse_maps_roundtrip_witness :
  ∃ self, init "paper" sample_class ["c0"; "c1"; "c2"] false true 2 = Ok self
    ∧ ∀ i : nat, (i < Z.to_nat 2)%nat →
        ∃ c ls mk h,
          colors self !! i = Some c
          ∧ linestyles self !! i = Some ls
          ∧ markers self !! i = Some mk
          ∧ hatches self !! i = Some h
          ∧ ls_map self !! c = Some ls
          ∧ marker_map self !! c = Some mk
          ∧ hatch_map self !! c = Some h.
Proof.
  apply (reverse_maps_roundtrip "paper" sample_class ["c0"; "c1"; "c2"]
           false true 2); [lia|simpl; lia|].
  apply (bool_decide_unpack _). vm_compute. exact I.
Defined.

Lemma reverse_maps_last_wins_witness :
  ∃ self, init "paper" sample_class ["c0"; "c1"; "c0"] false true 3 = Ok self
    ∧ ∀ (i : nat) c, (i < Z.to_nat 3)%nat →
        ["c0"; "c1"; "c0"] !! i = Some c →
        (∀ j, (i < j < Z.to_nat 3)%nat → ["c0"; "c1"; "c0"] !! j ≠ Some c) →
        ∃ ls mk h,
          linestyles self !! i = Some ls
          ∧ markers self !! i = Some mk
          ∧ hatches self !! i = Some h
          ∧ ls_map self !! c = Some ls
          ∧ marker_map self !! c = Some mk
          ∧ hatch_map self !! c = Some h.
Proof.
  apply (reverse_maps_last_wins "paper" sample_class ["c0"; "c1"; "c0"]
           false true 3); simpl; lia.
Defined.

Example reverse_maps_duplicate_color :
  ∃ self, init "paper" sample_class ["c0"; "c1"; "c0"] false true 3 = Ok self
    ∧ linestyles self = ["solid"; "dotted"; "dashed"]
    ∧ ls_map self !! "c0" = Some "dashed"
    ∧ marker_map self !! "c0" = Some "s"
    ∧ hatch_map self !! "c0" = Some "\\".
Proof. eexists. by split_and!. Qed.

Lemma init_short_palette_witness :
  init "paper" sample_class ["c0"] false true 2 = Raise IndexError
  ∧ Py.slice_to ["c0"] 2 = ["c0"]
  ∧ ∃ hs, get_entries available_hatches 2 = Ok hs
      ∧ Z.of_nat (length hs) = 2
      ∧ color_map ["c0"] hs = Raise IndexError.
Proof.
  apply (init_short_palette "paper" sample_class ["c0"] false true 2).
  simpl. lia.
Defined.

Lemma line_sizes_by_mode_witness :
  (∃ ret style, get_line_sizes (sample_builder "paper" true) = Ok ret
     ∧ ret !! "axes.linewidth" = Some (VFloat 0.5)
     ∧ ret !! "lines.linewidth" = Some (VFloat 0.8)
     ∧ ret !! "grid.linestyle" = Some (VStr "--")
     ∧ get_style (sample_builder "paper" true) = Ok style
     ∧ style !! "axes.linewidth" = Some (VFloat 0.5)
     ∧ style !! "lines.linewidth" = Some (VFloat 0.8)
     ∧ style !! "grid.linestyle" = Some (VStr "--"))
  ∧ (∃ style,
       get_line_sizes (sample_builder "presentation" true) =
         Ok {["grid.linestyle" := VStr "--"]}
       ∧ get_style (sample_builder "presentation" true) = Ok style
       ∧ style !! "grid.linestyle" = Some (VStr "--")
       ∧ ∀ k, is_Some (paper_line_sizes (color:=string) !! k) →
           style !! k = None).
Proof.
  split.
  - by apply (proj1 (line_sizes_by_mode (sample_builder "paper" true))).
  - by apply (proj2 (line_sizes_by_mode (sample_builder "presentation" true))).
Defined.

Lemma paper_build_layout_constants_witness :
  ∃ doc, get_figure_type (sample_builder "paper" true) = Ok doc
    ∧ doc_dict doc !! "columnwidth" = Some (VFloat (in2pt 13.33))
    ∧ doc_dict doc !! "textwidth" = Some (VFloat (in2pt 7.5)).
Proof. by apply (paper_build_layout_constants (sample_builder "paper" true)). Defined.

Lemma small_font_outside_paper_witness :
  (∀ doc, paper_small_font (sample_builder "presentation" true) doc =
            (doc, Raise AssertionError))
  ∧ (∀ style, get_style (sample_builder "presentation" true) = Ok style →
       get_figure_type (sample_builder "presentation" true) =
         Raise AssertionError)
  ∧ ("presentation" = "presentation" →
       (∃ style, get_style (sample_builder "presentation" true) = Ok style)
       ∧ get_figure_type (sample_builder "presentation" true) =
           Raise AssertionError).
Proof.
  by apply (small_font_outside_paper (sample_builder "presentation" true)).
Defined.

(** ** Further properties of the assigner *)

Section AssignerMore.
Context {A : Type}.
Implicit Types (P out : list A) (n : Z).

Lemma get_entries_below_zero P n :
  P ≠ [] → n < 0 →
  get_entries P n = Ok (take (length P - Z.to_nat (- n)) P).
Proof.
  intros HP Hn. pose proof (nonempty_length_pos P HP) as Hlen.
  rewrite get_entries_unfold by done. f_equal.
  unfold Py.slice_to, Py.list_mul.
  destruct (Z.leb_spec 0 n) as [|_]; [lia|].
  assert (n ÷ Z.of_nat (length P) = - (- n ÷ Z.of_nat (length P))) as ->.
  { rewrite <- Z.quot_opp_l by lia. f_equal. lia. }
  destruct (decide (- n < Z.of_nat (length P))) as [Hsmall|Hbig].
  - rewrite Z.quot_small by lia. simpl. by rewrite app_nil_r.
  - assert (0 < - n ÷ Z.of_nat (length P)).
    { rewrite Z.quot_div_nonneg by lia. apply Z.div_str_pos. lia. }
    replace (Z.to_nat (- (- n ÷ Z.of_nat (length P)) + 1)) with 0%nat by lia.
    simpl. replace (length P - Z.to_nat (- n))%nat with 0%nat by lia.
    by rewrite take_0.
Qed.


(** X2: a smaller count gives a prefix of what a larger count gives, so
    asking for more series never changes the entries already assigned. *)
Theorem get_entries_prefix P n n' :
  P ≠ [] → 0 ≤ n → n ≤ n' →
  ∃ out out', get_entries P n = Ok out
    ∧ get_entries P n' = Ok out'
    ∧ out = take (Z.to_nat n) out'.
Proof.
  intros HP Hn Hn'.
  destruct (get_entries_tiles P n HP Hn) as (out & Hout & Hlen & Hidx).
  destruct (get_entries_tiles P n' HP ltac:(lia)) as (out' & Hout' & Hlen' & Hidx').
  exists out, out'. split_and!; [done..|].
  apply list_eq. intros i.
  destruct (decide (i < Z.to_nat n)%nat) as [Hi|Hi].
  - rewrite lookup_take_lt by done. rewrite Hidx, Hidx' by lia. done.
  - rewrite lookup_take_ge by lia. apply lookup_ge_None. lia.
Qed.

(** X3: a count that does not exceed the palette returns the first [n]
    entries of the palette unchanged, and the whole palette for
    [n = len(P)]. *)
Theorem get_entries_no_wrap P n :
  P ≠ [] → 0 ≤ n → n ≤ Z.of_nat (length P) →
  get_entries P n = Ok (take (Z.to_nat n) P)
  ∧ (n = Z.of_nat (length P) → get_entries P n = Ok P).
Proof.
  intros HP Hn Hle.
  destruct (get_entries_tiles P n HP Hn) as (out & Hout & Hlen & Hidx).
  assert (out = take (Z.to_nat n) P) as ->.
  { apply list_eq. intros i.
    destruct (decide (i < Z.to_nat n)%nat) as [Hi|Hi].
    - rewrite lookup_take_lt by done. rewrite Hidx by done.
      by rewrite Nat.mod_small by lia.
    - rewrite lookup_take_ge by lia. apply lookup_ge_None. lia. }
  split; [done|]. intros ->. rewrite Hout. f_equal. apply take_ge. lia.
Qed.

(** X4: whatever the count, every entry [get_entries] returns is an
    entry of the palette, and a count of at least [len(P)] uses every
    entry of the palette. *)
Theorem get_entries_within_palette P n :
  P ≠ [] →
  ∃ out, get_entries P n = Ok out
    ∧ (∀ x, x ∈ out → x ∈ P)
    ∧ (Z.of_nat (length P) ≤ n → ∀ x, x ∈ P → x ∈ out).
Proof.
  intros HP. pose proof (nonempty_length_pos P HP) as Hpos.
  destruct (decide (0 ≤ n)) as [Hn|Hn].
  - destruct (get_entries_tiles P n HP Hn) as (out & Hout & Hlen & Hidx).
    exists out. split_and!; [done|..].
    + intros x [i Hi]%list_elem_of_lookup.
      pose proof (lookup_lt_Some _ _ _ Hi) as Hlt.
      rewrite Hidx in Hi by lia. by eapply list_elem_of_lookup_2.
    + intros Hall x [i Hi]%list_elem_of_lookup.
      pose proof (lookup_lt_Some _ _ _ Hi) as Hlt.
      apply list_elem_of_lookup. exists i.
      rewrite Hidx by lia. by rewrite Nat.mod_small.
  - rewrite get_entries_below_zero by (done || lia).
    eexists. split_and!; [done| |intros; lia].
    intros x [i Hi]%list_elem_of_lookup.
    apply lookup_take_Some in Hi as [Hi _]. by eapply list_elem_of_lookup_2.
Qed.

End AssignerMore.


Lemma get_entries_prefix_witness :
  ∃ out out', get_entries ["o"; "^"; "s"] 2 = Ok out
    ∧ get_entries ["o"; "^"; "s"] 7 = Ok out'
    ∧ out = take (Z.to_nat 2) out'.
Proof. apply (get_entries_prefix ["o"; "^"; "s"] 2 7); [done|lia|lia]. Defined.

Lemma get_entries_no_wrap_witness :
  get_entries ["o"; "^"; "s"] 3 = Ok (take (Z.to_nat 3) ["o"; "^"; "s"])
  ∧ (3 = Z.of_nat 3 → get_entries ["o"; "^"; "s"] 3 = Ok ["o"; "^"; "s"]).
Proof. apply (get_entries_no_wrap ["o"; "^"; "s"] 3); [done|lia|simpl; lia]. Defined.

Lemma get_entries_within_palette_witness :
  ∃ out, get_entries ["o"; "^"; "s"] 5 = Ok out
    ∧ (∀ x, x ∈ out → x ∈ ["o"; "^"; "s"])
    ∧ (Z.of_nat 3 ≤ 5 → ∀ x, x ∈ ["o"; "^"; "s"] → x ∈ out).
Proof. by apply (get_entries_within_palette ["o"; "^"; "s"] 5). Defined.

(** ** Further properties of the reverse maps *)

Section ReverseMapsMore.
Context {color : Type} `{Countable color} {V : Type}.
Implicit Types (cs : list color) (values : list V) (acc m : gmap color V).

(** The keys of the map are the colours the comprehension indexed. *)
Lemma color_map_from_dom cs i values acc m :
  color_map_from cs i values acc = Ok m →
  dom m = dom acc ∪ list_to_set (take (length values) (drop i cs)).
Proof.
  revert i acc. induction values as [|v rest IH]; intros i acc Hm; simpl in *.
  - injection Hm as <-. set_solver.
  - unfold Py.getitem in Hm.
    destruct (cs !! i) as [c|] eqn:Hc; simpl in Hm; [|done].
    rewrite (IH _ _ Hm), dom_insert_L, (drop_S _ _ _ Hc). simpl. set_solver.
Qed.


Lemma color_map_dom cs values m :
  color_map cs values = Ok m → length values = length cs →
  dom m = list_to_set cs.
Proof.
  intros Hm Hlen. rewrite (color_map_from_dom _ _ _ _ _ Hm).
  rewrite drop_0, Hlen, firstn_all, dom_empty_L. set_solver.
Qed.

End ReverseMapsMore.

(** Every member of a list has a last position. *)
Lemma last_position `{EqDecision A} (l : list A) (x : A) :
  x ∈ l → ∃ i, l !! i = Some x ∧ ∀ j, (i < j)%nat → l !! j ≠ Some x.
Proof.
  induction l as [|y l IH] using rev_ind; [by intros ?%elem_of_nil|].
  intros Hx. destruct (decide (y = x)) as [->|Hne].
  - exists (length l). split.
    + by rewrite lookup_app_r, Nat.sub_diag.
    + intros j Hj Hsome. apply lookup_lt_Some in Hsome.
      rewrite length_app in Hsome. simpl in Hsome. lia.
  - apply elem_of_app in Hx as [Hx|Hx%list_elem_of_singleton]; [|done].
    destruct (IH Hx) as (i & Hi & Hlast). exists i. split.
    + by apply lookup_app_l_Some.
    + intros j Hj Hsome. apply lookup_app_Some in Hsome as [Hsome|[_ Hsome]].
      * by apply (Hlast j).
      * apply list_lookup_singleton_Some in Hsome as [_ ?]. done.
Qed.

Section ConstructionMore.
Context {color : Type} `{Countable color}.
Implicit Types (cs : list color) (N : Z) (self : FigureTypeCreator (color:=color)).

Lemma built_colors cs N self :
  0 ≤ N → built_from cs N self → colors self = take (Z.to_nat N) cs.
Proof. intros HN [-> _]. by apply slice_to_nonneg. Qed.

Lemma built_doms cs N self :
  0 ≤ N → N ≤ Z.of_nat (length cs) → built_from cs N self →
  dom (ls_map self) = list_to_set (colors self)
  ∧ dom (marker_map self) = list_to_set (colors self)
  ∧ dom (hatch_map self) = list_to_set (colors self).
Proof.
  intros HN Hcs Hbuilt.
  destruct (built_lengths cs N self HN Hcs Hbuilt) as (Lc & Lls & Lms & Lhs).
  destruct Hbuilt as (_ & _ & _ & _ & Hhm & Hmm & Hlm).
  split_and!; eapply color_map_dom; eauto; congruence.
Qed.

(** X5: the three reverse maps have the same keys, the colours among the
    first [N] entries of the palette; any other colour is missing from
    all three. *)
Theorem reverse_maps_keys ty cls cs um sf N :
  0 ≤ N → N ≤ Z.of_nat (length cs) →
  ∃ self, init ty cls cs um sf N = Ok self
    ∧ dom (ls_map self) = list_to_set (take (Z.to_nat N) cs)
    ∧ dom (marker_map self) = list_to_set (take (Z.to_nat N) cs)
    ∧ dom (hatch_map self) = list_to_set (take (Z.to_nat N) cs)
    ∧ ∀ c, c ∉ take (Z.to_nat N) cs →
        ls_map self !! c = None
        ∧ marker_map self !! c = None
        ∧ hatch_map self !! c = None.
Proof.
  intros HN Hcs.
  destruct (init_ok ty cls cs um sf N HN Hcs) as [self Hself].
  exists self. split; [done|].
  apply init_inv in Hself as [Hbuilt _].
  destruct (built_doms cs N self HN Hcs Hbuilt) as (Dl & Dm & Dh).
  rewrite (built_colors cs N self HN Hbuilt) in Dl, Dm, Dh.
  split_and!; [done..|].
  intros c Hc. rewrite <- !not_elem_of_dom, Dl, Dm, Dh. set_solver.
Qed.

(** X6: for every colour among the first [N] entries of the palette
    there is one series index whose line style, marker and hatch the
    three reverse maps return together. *)
Theorem reverse_maps_aligned ty cls cs um sf N :
  0 ≤ N → N ≤ Z.of_nat (length cs) →
  ∃ self, init ty cls cs um sf N = Ok self
    ∧ ∀ c, c ∈ take (Z.to_nat N) cs →
        ∃ (i : nat) ls mk h,
          (i < Z.to_nat N)%nat
          ∧ cs !! i = Some c
          ∧ linestyles self !! i = Some ls
          ∧ markers self !! i = Some mk
          ∧ hatches self !! i = Some h
          ∧ ls_map self !! c = Some ls
          ∧ marker_map self !! c = Some mk
          ∧ hatch_map self !! c = Some h.
Proof.
  intros HN Hcs.
  destruct (init_ok ty cls cs um sf N HN Hcs) as [self Hself].
  exists self. split; [done|]. intros c Hc.
  apply init_inv in Hself as [Hbuilt _].
  destruct (built_lengths cs N self HN Hcs Hbuilt) as (Lc & Lls & Lms & Lhs).
  pose proof (built_colors cs N self HN Hbuilt) as Hcolors.
  destruct (last_position _ _ Hc) as (i & Hi & Hlast).
  assert (i < Z.to_nat N)%nat as Hlt.
  { apply lookup_lt_Some in Hi. rewrite length_take in Hi. lia. }
  destruct (lookup_lt_is_Some_2 (linestyles self) i) as [ls Hl]; [lia|].
  destruct (lookup_lt_is_Some_2 (markers self) i) as [mk Hm]; [lia|].
  destruct (lookup_lt_is_Some_2 (hatches self) i) as [h Hh]; [lia|].
  exists i, ls, mk, h.
  destruct (built_last_wins cs N self i c HN Hcs Hbuilt) as (? & ? & ?).
  - by rewrite Hcolors.
  - by rewrite Hcolors.
  - rewrite lookup_take_lt in Hi by done. split_and!; congruence.
Qed.

(** X7: when the first [N] colours are pairwise distinct, each reverse
    map has exactly [N] entries. *)
Theorem reverse_maps_size ty cls cs um sf N :
  0 ≤ N → N ≤ Z.of_nat (length cs) →
  NoDup (take (Z.to_nat N) cs) →
  ∃ self, init ty cls cs um sf N = Ok self
    ∧ Z.of_nat (size (ls_map self)) = N
    ∧ Z.of_nat (size (marker_map self)) = N
    ∧ Z.of_nat (size (hatch_map self)) = N.
Proof.
  intros HN Hcs Hdistinct.
  destruct (init_ok ty cls cs um sf N HN Hcs) as [self Hself].
  exists self. split; [done|].
  apply init_inv in Hself as [Hbuilt _].
  destruct (built_doms cs N self HN Hcs Hbuilt) as (Dl & Dm & Dh).
  rewrite (built_colors cs N self HN Hbuilt) in Dl, Dm, Dh.
  assert (size (list_to_set (C:=gset color) (take (Z.to_nat N) cs))
          = Z.to_nat N) as Hsize.
  { rewrite size_list_to_set by done. rewrite length_take. lia. }
  rewrite <- !size_dom, Dl, Dm, Dh, Hsize. lia.
Qed.


End ConstructionMore.

(** ** The property cycle of a constructed builder *)

Section Cycle.
Context {color : Type} `{Countable color}.
Implicit Types (cs : list color) (N : Z) (self : FigureTypeCreator (color:=color)).



End Cycle.

(** ** Further properties of the build *)

Section MethodsMore.
Context {color : Type} `{Countable color}.
Implicit Types (self : FigureTypeCreator (color:=color)).
Implicit Types (doc : Document (color:=color)) (k : string).

Lemma eq_str_not_presentation self :
  type self ≠ "presentation" →
  eq_str (color:=color) (VStr (type self)) "presentation" = false.
Proof. intros Hty. simpl. by apply String.eqb_neq. Qed.


Lemma get_line_sizes_other self :
  type self ≠ "paper" → type self ≠ "presentation" →
  get_line_sizes self = Raise NotImplementedError.
Proof.
  intros Hpaper Hpres. unfold get_line_sizes.
  by rewrite (eq_str_not_paper self Hpaper),
    (eq_str_not_presentation self Hpres).
Qed.



Lemma dict_update_new (d other : gmap string (pyval (color:=color))) k v :
  other !! k = Some v → Py.dict_update d other !! k = Some v.
Proof. intros Hk. unfold Py.dict_update. by apply lookup_union_Some_l. Qed.

Lemma dict_update_old (d other : gmap string (pyval (color:=color))) k :
  other !! k = None → Py.dict_update d other !! k = d !! k.
Proof. intros Hk. unfold Py.dict_update. by apply lookup_union_r. Qed.

Lemma font_sizes_other (big small : pyval (color:=color)) k :
  k ∉ ["font.size"; "axes.titlesize"; "axes.labelsize"; "legend.fontsize";
       "legend.title_fontsize"; "xtick.labelsize"; "ytick.labelsize"] →
  font_sizes big small !! k = None.
Proof.
  intros Hk. repeat (apply not_elem_of_cons in Hk as [? Hk]).
  unfold font_sizes, Py.dict_of. cbn [foldl fst snd].
  rewrite !lookup_insert_ne by done. apply lookup_empty.
Qed.

(** X12: in [paper] mode with the small-font flag set, [paper_small_font]
    sets the three primary sizes and the legend title to
    [footnotesize - 1] and the legend and tick label sizes to
    [footnotesize - 2], over whatever the style held; every other style
    entry, the attributes and the class of the document stay as they
    were. *)
Theorem paper_small_font_patch self doc :
  type self = "paper" → paper_use_small_font self = true →
  ∃ doc', paper_small_font self doc = (doc', Ok ())
    ∧ doc_style doc' !! "font.size" = Some (VFloat (footnotesize doc - 1))
    ∧ doc_style doc' !! "axes.titlesize" = Some (VFloat (footnotesize doc - 1))
    ∧ doc_style doc' !! "axes.labelsize" = Some (VFloat (footnotesize doc - 1))
    ∧ doc_style doc' !! "legend.title_fontsize"
        = Some (VFloat (footnotesize doc - 1))
    ∧ doc_style doc' !! "legend.fontsize" = Some (VFloat (footnotesize doc - 2))
    ∧ doc_style doc' !! "xtick.labelsize" = Some (VFloat (footnotesize doc - 2))
    ∧ doc_style doc' !! "ytick.labelsize" = Some (VFloat (footnotesize doc - 2))
    ∧ (∀ k,
         k ∉ ["font.size"; "axes.titlesize"; "axes.labelsize";
              "legend.fontsize"; "legend.title_fontsize"; "xtick.labelsize";
              "ytick.labelsize"] →
         doc_style doc' !! k = doc_style doc !! k)
    ∧ doc_dict doc' = doc_dict doc
    ∧ doc_class doc' = doc_class doc.
Proof.
  intros Hty Hflag. unfold paper_small_font.
  rewrite Hflag, (eq_str_paper self Hty).
  eexists. split; [done|]. cbn [update_style doc_style doc_dict doc_class].
  split_and!; try done; try (by apply dict_update_new).
  intros k Hk. by apply dict_update_old, font_sizes_other.
Qed.

(** X13: [presentation_config] writes [columnwidth] and [textwidth] over
    whatever the document held under these names and leaves its other
    attributes, its style and its class alone; a second call changes
    nothing more. *)
Theorem presentation_config_frame self doc :
  doc_dict (presentation_config self doc) !! "columnwidth"
    = Some (VFloat (in2pt 13.33))
  ∧ doc_dict (presentation_config self doc) !! "textwidth"
    = Some (VFloat (in2pt 7.5))
  ∧ (∀ k, k ≠ "columnwidth" → k ≠ "textwidth" →
       doc_dict (presentation_config self doc) !! k = doc_dict doc !! k)
  ∧ doc_style (presentation_config self doc) = doc_style doc
  ∧ doc_class (presentation_config self doc) = doc_class doc
  ∧ presentation_config self (presentation_config self doc)
    = presentation_config self doc.
Proof.
  unfold presentation_config, dict_attr_update.
  cbn [doc_style doc_dict doc_class].
  split_and!; try done; try (by apply dict_update_new).
  - intros k Hcol Htext. apply dict_update_old.
    unfold ppt_sizes, Py.dict_of. cbn [foldl fst snd].
    rewrite !lookup_insert_ne by done. apply lookup_empty.
  - f_equal. unfold Py.dict_update.
    by rewrite (assoc_L (∪)), (idemp_L (∪)).
Qed.

(** X14: in the style of a build the entries of the separate parts never
    overwrite each other: [pdf.fonttype] is 42, [axes.prop_cycle] is the
    cycle of the builder, and the default grid line style, the font
    family and the preamble are all there. *)
Theorem style_base_entries self style :
  get_style self = Ok style →
  style !! "pdf.fonttype" = Some (VInt 42)
  ∧ style !! "axes.prop_cycle" = Some (VCycler (get_cycler self))
  ∧ style !! "grid.linestyle" = Some (VStr "--")
  ∧ style !! "font.family" = Some (VStr "sans-serif")
  ∧ style !! "text.latex.preamble" = Some (VStr latex_preamble).
Proof.
  unfold get_style.
  destruct (decide (type self = "paper")) as [Hpaper|Hpaper].
  { rewrite (get_line_sizes_paper self Hpaper). run_bind.
    intros [= <-]. by split_and!. }
  destruct (decide (type self = "presentation")) as [Hpres|Hpres].
  { rewrite (get_line_sizes_presentation self Hpres). run_bind.
    intros [= <-]. by split_and!. }
  by rewrite (get_line_sizes_other self Hpaper Hpres).
Qed.



End MethodsMore.

(** ** Further runs on concrete inputs *)

Lemma reverse_maps_keys_witness :
  ∃ self, init "paper" sample_class ["c0"; "c1"; "c0"; "c3"] false true 3
            = Ok self
    ∧ dom (ls_map self) = list_to_set (take (Z.to_nat 3) ["c0"; "c1"; "c0"; "c3"])
    ∧ dom (marker_map self)
        = list_to_set (take (Z.to_nat 3) ["c0"; "c1"; "c0"; "c3"])
    ∧ dom (hatch_map self)
        = list_to_set (take (Z.to_nat 3) ["c0"; "c1"; "c0"; "c3"])
    ∧ ∀ c, c ∉ take (Z.to_nat 3) ["c0"; "c1"; "c0"; "c3"] →
        ls_map self !! c = None
        ∧ marker_map self !! c = None
        ∧ hatch_map self !! c = None.
Proof.
  apply (reverse_maps_keys "paper" sample_class ["c0"; "c1"; "c0"; "c3"]
           false true 3); simpl; lia.
Defined.

Lemma reverse_maps_aligned_witness :
  ∃ self, init "paper" sample_class ["c0"; "c1"; "c0"; "c3"] false true 3
            = Ok self
    ∧ ∀ c, c ∈ take (Z.to_nat 3) ["c0"; "c1"; "c0"; "c3"] →
        ∃ (i : nat) ls mk h,
          (i < Z.to_nat 3)%nat
          ∧ ["c0"; "c1"; "c0"; "c3"] !! i = Some c
          ∧ linestyles self !! i = Some ls
          ∧ markers self !! i = Some mk
          ∧ hatches self !! i = Some h
          ∧ ls_map self !! c = Some ls
          ∧ marker_map self !! c = Some mk
          ∧ hatch_map self !! c = Some h.
Proof.
  apply (reverse_maps_aligned "paper" sample_class ["c0"; "c1"; "c0"; "c3"]
           false true 3); simpl; lia.
Defined.

Lemma reverse_maps_size_witness :
  ∃ self, init "paper" sample_class ["c0"; "c1"; "c2"] false true 2 = Ok self
    ∧ Z.of_nat (size (ls_map self)) = 2
    ∧ Z.of_nat (size (marker_map self)) = 2
    ∧ Z.of_nat (size (hatch_map self)) = 2.
Proof.
  apply (reverse_maps_size "paper" sample_class ["c0"; "c1"; "c2"]
           false true 2); [lia|simpl; lia|].
  apply (bool_decide_unpack _). vm_compute. exact I.
Defined.



Example get_cycler_sample :
  get_cycler (sample_builder "paper" true)
  = [CycleRow "c0" "solid" None; CycleRow "c1" "dotted" None].
Proof. reflexivity. Qed.



Lemma paper_small_font_patch_witness :
  ∃ doc', paper_small_font (sample_builder "paper" true)
            (Document_new sample_class {["font.size" := VInt 10]})
          = (doc', Ok ())
    ∧ doc_style doc' !! "font.size" = Some (VFloat (8 - 1))
    ∧ doc_style doc' !! "legend.fontsize" = Some (VFloat (8 - 2)).
Proof.
  destruct (paper_small_font_patch (sample_builder "paper" true)
              (Document_new sample_class {["font.size" := VInt 10]}))
    as (doc' & Hrun & Hbig & _ & _ & _ & Hsmall & _); [done..|].
  by exists doc'.
Defined.

Lemma presentation_config_frame_witness :
  doc_dict (presentation_config (sample_builder "paper" true)
              (Document_new sample_class ∅)) !! "footnotesize" = None.
Proof.
  by rewrite (proj1 (proj2 (proj2 (presentation_config_frame
                (sample_builder "paper" true)
                (Document_new sample_class ∅)))) "footnotesize").
Defined.

Lemma style_base_entries_witness :
  ∃ style, get_style (sample_builder "paper" true) = Ok style
    ∧ style !! "pdf.fonttype" = Some (VInt 42)
    ∧ style !! "axes.prop_cycle"
        = Some (VCycler (get_cycler (sample_builder "paper" true))).
Proof.
  eexists. split; [reflexivity|].
  destruct (style_base_entries (sample_builder "paper" true) _ eq_refl)
    as (Hfont & Hcycle & _).
  by split.
Defined.


